(** * The daily journal pipeline: categorise, build, enhance, render, store

    A shallow embedding of [journal-generator.ts] (class
    [DailyJournalGenerator]) and of the compiled [mcp-journal-integrator.js]
    (class [MCPJournalIntegrator]), together with the properties the
    specification states about them.

    Conventions of the embedding:
    - a JavaScript string is a [string] (its UTF-8 bytes); Rocq string
      literals have no escape sequences, so the literal ["\n"] below is the
      two characters backslash and [n], exactly what the JavaScript source
      text [\\n] denotes, while a line feed is written [LF];
    - an array is a [list], [push] appends at the end;
    - an object of type [any] is a finite map from property names to values;
    - the journal directory is a finite map from file names to contents. *)

From stdpp Require Import gmap strings list sorting pretty.
From Stdlib Require Import ZArith Ascii.

(** ** The JavaScript runtime the code relies on *)

Module Js.

Inductive value :=
| VUndefined
| VNull
| VBool (b : bool)
| VNum (n : Z)
| VStr (s : string).

Global Instance value_eq_dec : EqDecision value.
Proof. solve_decision. Defined.

(** An object whose properties hold scalars; reading a property that is
    absent gives [undefined]. *)
Abbreviation object := (gmap string value).

Definition get (o : object) (k : string) : value :=
  default VUndefined (o !! k).

(** The string a template literal substitutes for [${v}]. *)
Definition to_string (v : value) : string :=
  match v with
  | VUndefined => "undefined"
  | VNull => "null"
  | VBool true => "true"
  | VBool false => "false"
  | VNum n => pretty n
  | VStr s => s
  end.

(** The line feed character, written as a real line break in the multi-line
    template of [generateMarkdown]. *)
Definition LF : string := String "010"%char "".

(** [String.prototype.toLowerCase] on the letters A to Z.  No character
    outside that range lower-cases to one of the letters of the state
    labels, so comparing the result with a label is not affected by the
    characters left as they are. *)
Definition lower_char (c : ascii) : ascii :=
  let n := N_of_ascii c in
  if ((65 <=? n) && (n <=? 90))%N then ascii_of_N (n + 32) else c.

Fixpoint toLowerCase (s : string) : string :=
  match s with
  | EmptyString => EmptyString
  | String c r => String (lower_char c) (toLowerCase r)
  end.

(** [Array.prototype.join]. *)
Fixpoint join (sep : string) (l : list string) : string :=
  match l with
  | [] => ""
  | [x] => x
  | x :: r => x +:+ sep +:+ join sep r
  end.

Fixpoint startsWith (s p : string) {struct p} : bool :=
  match p, s with
  | EmptyString, _ => true
  | String a p', String b s' => bool_decide (a = b) && startsWith s' p'
  | String _ _, EmptyString => false
  end.

(** [s.endsWith(p)]: [p] is [s] or ends the rest of [s]. *)
Fixpoint endsWith (s p : string) : bool :=
  String.eqb s p
  || match s with
     | EmptyString => false
     | String _ r => endsWith r p
     end.

Fixpoint drop_chars (n : nat) (s : string) : string :=
  match n, s with
  | O, _ => s
  | S n', String _ r => drop_chars n' r
  | S _, EmptyString => EmptyString
  end.

(** [s.replace(p, '')] for a string pattern [p]: the first occurrence of
    [p] in [s] is removed, and [s] is returned as it is when there is none. *)
Fixpoint remove_first (p s : string) : string :=
  if startsWith s p then drop_chars (String.length p) s
  else match s with
       | EmptyString => EmptyString
       | String c r => String c (remove_first p r)
       end.

End Js.

(** ** Data model *)

(** A raw work item as the work-tracking query returns it: an id and a bag
    of fields keyed by fixed names.  [System.Tags] may be absent. *)
Module Raw.

Record Fields := {
  System_Title : string;
  System_State : string;
  System_WorkItemType : string;
  System_Tags : option string
}.

Record item := { id : Z; fields : Fields }.

End Raw.

Module WorkItem.

Record t := {
  id : Z;
  title : string;
  state : string;
  workItemType : string;
  tags : option string
}.

Global Instance eq_dec : EqDecision t.
Proof. solve_decision. Defined.

End WorkItem.

Record Buckets := {
  inProgress : list WorkItem.t;
  open : list WorkItem.t;
  pending : list WorkItem.t
}.

Record JournalEntry := {
  date : string;
  dayOfWeek : string;
  workItems : Buckets;
  pullRequests : list Js.object;
  meetings : list Js.object;
  accomplishments : list string;
  challenges : list string;
  nextSteps : list string;
  mood : string;
  notes : string
}.

(** The raw data handed to [enhanceJournalEntry]. *)
Record RawData := {
  raw_workItems : list Raw.item;
  raw_meetings : list Js.object;
  raw_pullRequests : list Js.object
}.

(** ** DailyJournalGenerator.categorizeWorkItems *)

Definition toWorkItem (item : Raw.item) : WorkItem.t :=
  {| WorkItem.id := Raw.id item;
     WorkItem.title := Raw.System_Title (Raw.fields item);
     WorkItem.state := Raw.System_State (Raw.fields item);
     WorkItem.workItemType := Raw.System_WorkItemType (Raw.fields item);
     WorkItem.tags := Raw.System_Tags (Raw.fields item) |}.

(** The body of the [forEach] callback: build the work item, then switch on
    the lower-cased state; a state matching no case leaves the buckets as
    they are. *)
Definition categorize_step (categorized : Buckets) (item : Raw.item) : Buckets :=
  let workItem := toWorkItem item in
  let s := Js.toLowerCase (Raw.System_State (Raw.fields item)) in
  if String.eqb s "in progress" || String.eqb s "active" then
    {| inProgress := inProgress categorized ++ [workItem];
       open := open categorized;
       pending := pending categorized |}
  else if String.eqb s "pending" then
    {| inProgress := inProgress categorized;
       open := open categorized;
       pending := pending categorized ++ [workItem] |}
  else if String.eqb s "open" || String.eqb s "new" then
    {| inProgress := inProgress categorized;
       open := open categorized ++ [workItem];
       pending := pending categorized |}
  else categorized.

Definition categorizeWorkItems (workItems : list Raw.item) : Buckets :=
  fold_left categorize_step workItems
    {| inProgress := []; open := []; pending := [] |}.

(** The state of a raw item compared with a label, ignoring case. *)
Definition state_is (label : string) (item : Raw.item) : Prop :=
  Js.toLowerCase (Raw.System_State (Raw.fields item)) = label.

Global Instance state_is_dec label item : Decision (state_is label item).
Proof. unfold state_is. apply _. Defined.

Definition goes_inProgress (item : Raw.item) : Prop :=
  state_is "in progress" item ∨ state_is "active" item.
Definition goes_pending (item : Raw.item) : Prop :=
  state_is "pending" item.
Definition goes_open (item : Raw.item) : Prop :=
  state_is "open" item ∨ state_is "new" item.

Global Instance goes_inProgress_dec item : Decision (goes_inProgress item).
Proof. unfold goes_inProgress. apply _. Defined.
Global Instance goes_pending_dec item : Decision (goes_pending item).
Proof. unfold goes_pending. apply _. Defined.
Global Instance goes_open_dec item : Decision (goes_open item).
Proof. unfold goes_open. apply _. Defined.

(** The five state labels the switch has a case for. *)
Definition recognized_labels : list string :=
  ["in progress"; "active"; "pending"; "open"; "new"].

Definition recognized (item : Raw.item) : Prop :=
  Js.toLowerCase (Raw.System_State (Raw.fields item)) ∈ recognized_labels.

Definition bucket_total (b : Buckets) : nat :=
  length (inProgress b) + length (open b) + length (pending b).

(** ** Dates *)

(** A [Date] object: a time value in milliseconds since the epoch, or the
    invalid date, whose time value is [NaN]. *)
Module Date.

Inductive t :=
| Instant (ms : Z)
| Invalid.

Definition getTime (d : t) : option Z :=
  match d with
  | Instant ms => Some ms
  | Invalid => None
  end.

Definition msPerDay : Z := 1000 * 60 * 60 * 24.

(** Days from 1970-01-01 to the civil date [y]-[m]-[d] (proleptic
    Gregorian calendar). *)
Definition days_from_civil (y m d : Z) : Z :=
  let y' := (if m <=? 2 then y - 1 else y)%Z in
  let era := (y' / 400)%Z in
  let yoe := (y' - era * 400)%Z in
  let mp := ((m + 9) mod 12)%Z in
  let doy := ((153 * mp + 2) / 5 + d - 1)%Z in
  let doe := (yoe * 365 + yoe / 4 - yoe / 100 + doy)%Z in
  (era * 146097 + doe - 719468)%Z.

Definition is_leap (y : Z) : bool :=
  ((y mod 4 =? 0) && (negb (y mod 100 =? 0) || (y mod 400 =? 0)))%Z.

Definition days_in_month (y m : Z) : Z :=
  if (m =? 2)%Z then (if is_leap y then 29 else 28)%Z
  else if ((m =? 4) || (m =? 6) || (m =? 9) || (m =? 11))%Z then 30%Z
  else 31%Z.

Fixpoint digits_go (acc : Z) (s : string) : option Z :=
  match s with
  | EmptyString => Some acc
  | String c r =>
      match Ascii.is_nat c with
      | Some k => digits_go (acc * 10 + Z.of_nat k)%Z r
      | None => None
      end
  end.

Definition digits (s : string) : option Z :=
  match s with
  | EmptyString => None
  | _ => digits_go 0%Z s
  end.

(** The [Date] constructor on the date-only form [YYYY-MM-DD], which is
    read as midnight UTC of that day.  What an engine makes of any other
    text is left open by the language; this parser reports it invalid and
    is used for the worked examples only, the pipeline below taking the
    constructor as a parameter. *)
Definition of_iso_date (s : string) : t :=
  match s with
  | String y1 (String y2 (String y3 (String y4 (String "-"
      (String m1 (String m2 (String "-" (String d1 (String d2 "")))))))))  =>
      match digits (String y1 (String y2 (String y3 (String y4 ""))))%string,
            digits (String m1 (String m2 "")), digits (String d1 (String d2 "")) with
      | Some y, Some m, Some d =>
          if ((1 <=? m) && (m <=? 12) && (1 <=? d) && (d <=? days_in_month y m))%Z
          then Instant (days_from_civil y m d * msPerDay)
          else Invalid
      | _, _, _ => Invalid
      end
  | _ => Invalid
  end.

(** The weekday index of an instant in UTC; 1970-01-01 was a Thursday. *)
Definition utc_day (d : t) : nat :=
  match d with
  | Instant ms => Z.to_nat ((ms / msPerDay + 4) mod 7)
  | Invalid => 7
  end.

End Date.

(** ** The pipeline

    The pieces of the environment the two classes read are parameters: the
    [Date] constructor on strings, [getDay] (a weekday index in the time
    zone of the process), [toISOString], and the journal directory, which
    the constructor fixes to [journal-entries] under the working
    directory. *)

Section Pipeline.

Variable Date_parse : string → Date.t.
Variable Date_getDay : Date.t → nat.
Variable Date_toISOString : Date.t → string.
Variable journalDir : string.

(** *** DailyJournalGenerator *)

(** [s.split('T')[0]]: the text before the first [T]. *)
Fixpoint before_T (s : string) : string :=
  match s with
  | EmptyString => EmptyString
  | String c r => if bool_decide (c = "T"%char) then EmptyString
                  else String c (before_T r)
  end.

Definition formatDate (date : Date.t) : string :=
  before_T (Date_toISOString date).

Definition days : list string :=
  ["Sunday"; "Monday"; "Tuesday"; "Wednesday"; "Thursday"; "Friday"; "Saturday"].

(** [days[date.getDay()]]; an index outside the table reads [undefined],
    which stands here as the text a template prints for it. *)
Definition getDayOfWeek (date : Date.t) : string :=
  default "undefined" (days !! Date_getDay date).

(** The ids are printed with their decimal digits, as a template prints a
    number that is a safe integer. *)
Definition generateTodaysEntry (today : Date.t) (workItems : list Raw.item)
    (pullRequests meetings : list Js.object) : JournalEntry :=
  let workItemCategories := categorizeWorkItems workItems in
  {| date := formatDate today;
     dayOfWeek := getDayOfWeek today;
     workItems := workItemCategories;
     pullRequests := pullRequests;
     meetings := meetings;
     accomplishments :=
       (λ item, "Continued work on " +:+ WorkItem.workItemType item +:+ ": "
                +:+ WorkItem.title item +:+ " (ID: " +:+ pretty (WorkItem.id item) +:+ ")")
       <$> inProgress workItemCategories;
     challenges := [];
     nextSteps :=
       (λ item, "Start/continue " +:+ WorkItem.workItemType item +:+ ": "
                +:+ WorkItem.title item +:+ " (ID: " +:+ pretty (WorkItem.id item) +:+ ")")
       <$> open workItemCategories;
     mood := "productive";
     notes := "" |}.

(** A string is truthy when it is present and not empty. *)
Definition truthy (s : option string) : bool :=
  match s with
  | Some (String _ _) => true
  | _ => false
  end.

Definition workItemBullet (item : WorkItem.t) : string :=
  "- **" +:+ WorkItem.workItemType item +:+ " #" +:+ pretty (WorkItem.id item)
  +:+ "**: " +:+ WorkItem.title item
  +:+ (if truthy (WorkItem.tags item)
       then "\n  _Tags: " +:+ default "" (WorkItem.tags item) +:+ "_"
       else "").

Definition workItemsSection (placeholder : string) (items : list WorkItem.t) : string :=
  if bool_decide (length items = 0%nat) then placeholder
  else Js.join "\n" (workItemBullet <$> items).

Definition pullRequestBullet (pr : Js.object) : string :=
  "- **PR #" +:+ Js.to_string (Js.get pr "id") +:+ "**: "
  +:+ Js.to_string (Js.get pr "title") +:+ " - " +:+ Js.to_string (Js.get pr "status").

Definition pullRequestsSection (prs : list Js.object) : string :=
  if bool_decide (length prs = 0%nat) then "_No active pull requests_"
  else Js.join "\n" (pullRequestBullet <$> prs).

Definition meetingBullet (meeting : Js.object) : string :=
  "- " +:+ Js.to_string (Js.get meeting "time") +:+ ": "
  +:+ Js.to_string (Js.get meeting "title").

Definition meetingsSection (ms : list Js.object) : string :=
  if bool_decide (length ms = 0%nat) then "_No meetings tracked_"
  else Js.join "\n" (meetingBullet <$> ms).

Definition bulletSection (placeholder : string) (items : list string) : string :=
  if bool_decide (length items = 0%nat) then placeholder
  else Js.join "\n" ((λ item, "- " +:+ item) <$> items).

Definition notesSection (notes : string) : string :=
  if truthy (Some notes) then notes
  else "_Add any additional notes or thoughts here_".

(** The template, line by line; [now] is the instant of the footer. *)
Definition generateMarkdown (now : Date.t) (entry : JournalEntry) : string :=
  Js.join Js.LF [
    "# Daily Journal - " +:+ date entry +:+ " (" +:+ dayOfWeek entry +:+ ")";
    "";
    "## 📋 Work Items Status";
    "";
    "### 🔄 In Progress";
    workItemsSection "_No items in progress_" (inProgress (workItems entry));
    "";
    "### 📂 Open Items";
    workItemsSection "_No open items_" (open (workItems entry));
    "";
    "### ⏸️ Pending Items";
    workItemsSection "_No pending items_" (pending (workItems entry));
    "";
    "## 🔀 Pull Requests";
    pullRequestsSection (pullRequests entry);
    "";
    "## 📅 Meetings & Events";
    meetingsSection (meetings entry);
    "";
    "## ✅ Accomplishments";
    bulletSection "_Add your accomplishments here_" (accomplishments entry);
    "";
    "## 🚧 Challenges";
    bulletSection "_Add any challenges you faced_" (challenges entry);
    "";
    "## 🎯 Next Steps";
    bulletSection "_Add your planned next steps_" (nextSteps entry);
    "";
    "## 😊 Mood: " +:+ mood entry;
    "";
    "## 📝 Notes";
    notesSection (notes entry);
    "";
    "---";
    "_Generated on " +:+ Date_toISOString now +:+ "_";
    ""
  ].

(** [path.join] of a normalised directory and a single path segment, with
    the POSIX separator; [path.join] resolves [..] and repeated separators,
    which a name with a [/] or a [.] segment would bring in, so the
    properties of the store are stated for dates of the [YYYY-MM-DD]
    format. *)
Definition path_join (dir name : string) : string :=
  dir +:+ "/" +:+ name.

Definition entryFilename (date : string) : string :=
  "journal-" +:+ date +:+ ".md".

(** The journal directory as a map from file names to contents.
    [writeFileSync] creates or replaces the file of that name; this is what
    the code does when the name is a single path segment, which a date of
    the [YYYY-MM-DD] format gives (another date can name a file elsewhere
    or a directory that does not exist, and the write then fails). *)
Definition saveEntry (now : Date.t) (entry : JournalEntry)
    (files : gmap string string) : string * gmap string string :=
  let filename := entryFilename (date entry) in
  let filepath := path_join journalDir filename in
  let markdown := generateMarkdown now entry in
  (filepath, <[filename := markdown]> files).

Definition loadEntry (date : string) (files : gmap string string)
    : option JournalEntry :=
  let filename := entryFilename date in
  match files !! filename with
  | None => None
  | Some content =>
      Some {| date := date;
              dayOfWeek := getDayOfWeek (Date_parse date);
              workItems := {| inProgress := []; open := []; pending := [] |};
              pullRequests := [];
              meetings := [];
              accomplishments := [];
              challenges := [];
              nextSteps := [];
              mood := "unknown";
              notes := content |}
  end.

(** [readdirSync]: the names in the directory, in an order the platform
    chooses. *)
Definition readdirSync (files : gmap string string) : list string :=
  (map_to_list files).*1.

Definition is_journal_file (file : string) : bool :=
  Js.startsWith file "journal-" && Js.endsWith file ".md".

Definition strip_name (file : string) : string :=
  Js.remove_first ".md" (Js.remove_first "journal-" file).

(** [sort()] without a comparator orders strings by their UTF-16 code
    units; [String.le] orders them by their bytes, which is the same order
    on ASCII names. *)
Definition listEntries (files : gmap string string) : list string :=
  reverse (merge_sort String.le
    (strip_name <$> filter (λ file, is_journal_file file = true) (readdirSync files))).

(** *** MCPJournalIntegrator *)

Definition calculateMood {A B} (workItems : list A) (meetings : list B) : string :=
  let workloadScore := length workItems in
  let meetingLoad := length meetings in
  if bool_decide (workloadScore < 3)%nat && bool_decide (meetingLoad < 4)%nat
  then "relaxed"
  else if bool_decide (workloadScore < 5)%nat && bool_decide (meetingLoad < 6)%nat
  then "productive"
  else if bool_decide (workloadScore < 8)%nat
  then "busy"
  else "overwhelmed".

Definition is_review (m : Js.object) : bool :=
  bool_decide (Js.get m "type" = Js.VStr "review").

Definition is_active_strict (item : Raw.item) : bool :=
  String.eqb (Raw.System_State (Raw.fields item)) "In Progress"
  || String.eqb (Raw.System_State (Raw.fields item)) "Active".

Definition contextualAccomplishments (data : RawData) : list string :=
  (if existsb is_review (raw_meetings data)
   then ["Participated in architecture review meeting"] else [])
  ++ (if bool_decide (0 < length (raw_pullRequests data))%nat
      then ["Created/reviewed " +:+ pretty (length (raw_pullRequests data))
            +:+ " pull request(s)"]
      else []).

Definition boilerplateNextSteps : list string :=
  ["Review pending EUDB compliance requirements";
   "Follow up on architecture review feedback"].

Definition productivityNote (data : RawData) : string :=
  let totalWorkItems := length (raw_workItems data) in
  let activeItems := length (List.filter is_active_strict (raw_workItems data)) in
  "Productivity Overview: " +:+ pretty activeItems +:+ "/" +:+ pretty totalWorkItems
  +:+ " work items active, " +:+ pretty (length (raw_meetings data))
  +:+ " meetings scheduled".

Definition enhanceJournalEntry (entry : JournalEntry) (data : RawData) : JournalEntry :=
  let prioritizedNextSteps := nextSteps entry ++ boilerplateNextSteps in
  {| date := date entry;
     dayOfWeek := dayOfWeek entry;
     workItems := workItems entry;
     pullRequests := pullRequests entry;
     meetings := meetings entry;
     accomplishments := accomplishments entry ++ contextualAccomplishments data;
     challenges := challenges entry;
     nextSteps := prioritizedNextSteps;
     mood := calculateMood (raw_workItems data) (raw_meetings data);
     notes := productivityNote data +:+ "\n\n" +:+ notes entry |}.

(** The age of a stored date in whole days: [Math.floor] of the difference
    of the time values over the milliseconds of a day; an invalid date has
    no age ([NaN]).  Time values are integers, their difference is exact,
    and the rounding of the quotient does not reach the next integer for
    ages below 2^27 days, so the floor is the one of integer division. *)
Definition dayDiff (today : Z) (entry : string) : option Z :=
  match Date.getTime (Date_parse entry) with
  | Some t => Some ((today - t) / Date.msPerDay)%Z
  | None => None
  end.

(** The [for] loop of [calculateStreakDays] from index [i] on, [streak]
    being the count so far; [break] returns it. *)
Fixpoint streak_loop (today : Z) (entries : list string) (i streak : nat) : nat :=
  match entries with
  | [] => streak
  | e :: rest =>
      if bool_decide (dayDiff today e = Some (Z.of_nat i))
      then streak_loop today rest (S i) (S streak)
      else streak
  end.

Definition calculateStreakDays (today : Z) (entries : list string) : nat :=
  if bool_decide (length entries = 0%nat) then 0%nat
  else streak_loop today entries 0 0.

(** [getJournalInsights]: the entry count, the seven most recent dates and
    the streak. *)
Definition getJournalInsights (today : Z) (files : gmap string string)
    : nat * list string * nat :=
  let entries := listEntries files in
  (length entries, take 7 entries, calculateStreakDays today entries).



(** The specification's reading of the streak: [n] is the length of a
    prefix of [entries] in which the date at each position [k] is exactly
    [k] whole days old. *)
Definition aged_prefix (today : Z) (entries : list string) (n : nat) : Prop :=
  (n ≤ length entries)%nat
  ∧ ∀ (k : nat) (e : string),
      (k < n)%nat → entries !! k = Some e → dayDiff today e = Some (Z.of_nat k).

End Pipeline.

(** A date written with digits and hyphens only, as [formatDate] writes
    it ([YYYY-MM-DD]); such a date makes a file name of one path segment
    with [.md] nowhere but at its end. *)
Fixpoint plain_date (d : string) : bool :=
  match d with
  | EmptyString => true
  | String c r =>
      (bool_decide (is_Some (Ascii.is_nat c)) || bool_decide (c = "-"%char))
      && plain_date r
  end.

(** The date format of the data model, [YYYY-MM-DD]: four digits, a
    hyphen, two digits, a hyphen, two digits.  For such a date
    [journal-DATE.md] is a short file name of one path segment, so that
    [path.join] only puts the separator between the directory and the
    name and the write goes to that file of the journal directory. *)
Definition iso_date (d : string) : bool :=
  match d with
  | String y1 (String y2 (String y3 (String y4 (String h1
      (String m1 (String m2 (String h2 (String d1 (String d2 EmptyString)))))))))
    => forallb (λ c, bool_decide (is_Some (Ascii.is_nat c)))
         [y1; y2; y3; y4; m1; m2; d1; d2]
       && bool_decide (h1 = "-"%char) && bool_decide (h2 = "-"%char)
  | _ => false
  end.


(** A whole number that a JavaScript number holds exactly
    ([Number.isSafeInteger]); a template prints such a number with its
    decimal digits, as [pretty] does. *)
Definition safe_integer (n : Z) : Prop :=
  (- 9007199254740991 ≤ n ≤ 9007199254740991)%Z.

(** *** The data of the mock fetchers

    [fetchADOWorkItems], [fetchCalendarEvents] and [fetchPullRequests]
    return these records; the properties the pipeline never reads (the
    changed and created dates, the reviewers) are left out. *)

Definition mockWorkItems : list Raw.item :=
  [ {| Raw.id := 2523677;
       Raw.fields :=
         {| Raw.System_Title :=
              "[ACS][EUDB] Workstream 1: Comply with EU Data Boundary requirements for EUII/CC processing and storage only within EUDB by 06/30/22";
            Raw.System_State := "In Progress";
            Raw.System_WorkItemType := "Feature";
            Raw.System_Tags :=
              Some "Consumer:IC3-ACS; CY21H2; CY22H2; dcrreview; EUDB; EUDB-IC3; IC3-ACS; IC3-EUDB-W1; IC3Horizontal; IC3horizontalapproved; Producer:IC3-ACS; Semester:Cu; Spool2HCY2023-Dependencies" |} |};
    {| Raw.id := 2572902;
       Raw.fields :=
         {| Raw.System_Title :=
              "[ACS] Data tagging for SMBA and ACS auth (identified during bot implementation)";
            Raw.System_State := "Pending";
            Raw.System_WorkItemType := "Exception";
            Raw.System_Tags := Some "IC3 ACS" |} |} ].

Definition mockStandup : Js.object :=
  list_to_map [ ("title", Js.VStr "Daily Standup - ACS Team");
                ("startTime", Js.VStr "09:00 AM");
                ("endTime", Js.VStr "09:30 AM");
                ("attendees", Js.VNum 5);
                ("type", Js.VStr "meeting") ].

Definition mockReview : Js.object :=
  list_to_map [ ("title", Js.VStr "EUDB Architecture Review");
                ("startTime", Js.VStr "2:00 PM");
                ("endTime", Js.VStr "3:00 PM");
                ("attendees", Js.VNum 12);
                ("type", Js.VStr "review") ].

Definition mockFocus : Js.object :=
  list_to_map [ ("title", Js.VStr "Focus Time - Code Review");
                ("startTime", Js.VStr "10:00 AM");
                ("endTime", Js.VStr "11:30 AM");
                ("attendees", Js.VNum 1);
                ("type", Js.VStr "focus") ].

Definition mockEvents : list Js.object := [mockStandup; mockReview; mockFocus].

Definition mockPRs : list Js.object :=
  [ list_to_map [ ("id", Js.VNum 12345);
                  ("title", Js.VStr "Fix EUDB compliance validation logic");
                  ("status", Js.VStr "Active");
                  ("repository", Js.VStr "acs-backend") ] ].


(** A raw item that carries nothing but a state. *)
Definition item_in_state (s : string) : Raw.item :=
  {| Raw.id := 1;
     Raw.fields := {| Raw.System_Title := "X"; Raw.System_State := s;
                      Raw.System_WorkItemType := "Task";
                      Raw.System_Tags := None |} |}.

(** An entry that holds nothing but a date. *)
Definition blankEntry (d : string) : JournalEntry :=
  {| date := d; dayOfWeek := "";
     workItems := {| inProgress := []; open := []; pending := [] |};
     pullRequests := []; meetings := []; accomplishments := [];
     challenges := []; nextSteps := []; mood := "productive"; notes := "" |}.

(** *** MCPJournalIntegrator.generateComprehensiveJournal

    The three fetchers are awaited together and return the mock records
    above; the entry is built, enhanced and saved.  [today] is the clock
    read of [generateTodaysEntry], [now] the one of the footer. *)
Definition generateComprehensiveJournal (Date_getDay : Date.t → nat)
    (Date_toISOString : Date.t → string) (journalDir : string)
    (today now : Date.t) (files : gmap string string)
    : string * gmap string string :=
  let workItems := mockWorkItems in
  let meetings := mockEvents in
  let pullRequests := mockPRs in
  let journalEntry :=
    generateTodaysEntry Date_getDay Date_toISOString today
      workItems pullRequests meetings in
  let enhancedEntry :=
    enhanceJournalEntry journalEntry
      {| raw_workItems := workItems; raw_meetings := meetings;
         raw_pullRequests := pullRequests |} in
  saveEntry Date_toISOString journalDir now enhancedEntry files.

(** The four moods in the order of the policy, lightest first; any other
    text ranks above them. *)
Definition moodRank (mood : string) : nat :=
  if String.eqb mood "relaxed" then 0
  else if String.eqb mood "productive" then 1
  else if String.eqb mood "busy" then 2
  else if String.eqb mood "overwhelmed" then 3
  else 4.

(** *** The [create-work-item] tool of the Azure DevOps server

    The handler builds a JSON patch document from its arguments before it
    calls the work item API: the title always, then the description, the
    assignee and the priority when they are truthy, and the severity when
    it is truthy and the work item type is a bug.  Optional arguments are
    [None] when left out; a priority is a whole number here. *)
Module AdoServer.

Record PatchOp := { op : string; path : string; value : Js.value }.

Definition truthy_number (n : option Z) : bool :=
  match n with
  | Some k => negb (Z.eqb k 0)
  | None => false
  end.

Definition createWorkItemPatch (workItemType title : string)
    (description assignedTo : option string) (priority : option Z)
    (severity : option string) : list PatchOp :=
  let patchDocument :=
    [ {| op := "add"; path := "/fields/System.Title"; value := Js.VStr title |} ] in
  let patchDocument :=
    if truthy description
    then patchDocument ++ [ {| op := "add"; path := "/fields/System.Description";
                               value := Js.VStr (default "" description) |} ]
    else patchDocument in
  let patchDocument :=
    if truthy assignedTo
    then patchDocument ++ [ {| op := "add"; path := "/fields/System.AssignedTo";
                               value := Js.VStr (default "" assignedTo) |} ]
    else patchDocument in
  let patchDocument :=
    if truthy_number priority
    then patchDocument ++ [ {| op := "add";
                               path := "/fields/Microsoft.VSTS.Common.Priority";
                               value := Js.VNum (default 0%Z priority) |} ]
    else patchDocument in
  let patchDocument :=
    if truthy severity && String.eqb (Js.toLowerCase workItemType) "bug"
    then patchDocument ++ [ {| op := "add";
                               path := "/fields/Microsoft.VSTS.Common.Severity";
                               value := Js.VStr (default "" severity) |} ]
    else patchDocument in
  patchDocument.

(** The paths a patch document can hold, in the order the handler pushes
    them. *)
Definition patchPaths : list string :=
  [ "/fields/System.Title"; "/fields/System.Description";
    "/fields/System.AssignedTo"; "/fields/Microsoft.VSTS.Common.Priority";
    "/fields/Microsoft.VSTS.Common.Severity" ].

End AdoServer.

(** ** Properties of the categoriser *)

Lemma step_inProgress acc item :
  goes_inProgress item →
  categorize_step acc item =
    {| inProgress := inProgress acc ++ [toWorkItem item];
       open := open acc; pending := pending acc |}.
Proof.
  unfold goes_inProgress, state_is, categorize_step.
  intros [-> | ->]; reflexivity.
Qed.

Lemma step_pending acc item :
  goes_pending item →
  categorize_step acc item =
    {| inProgress := inProgress acc; open := open acc;
       pending := pending acc ++ [toWorkItem item] |}.
Proof.
  unfold goes_pending, state_is, categorize_step. intros ->. reflexivity.
Qed.

Lemma step_open acc item :
  goes_open item →
  categorize_step acc item =
    {| inProgress := inProgress acc; open := open acc ++ [toWorkItem item];
       pending := pending acc |}.
Proof.
  unfold goes_open, state_is, categorize_step.
  intros [-> | ->]; reflexivity.
Qed.

Lemma step_dropped acc item :
  ¬ goes_inProgress item → ¬ goes_pending item → ¬ goes_open item →
  categorize_step acc item = acc.
Proof.
  unfold goes_inProgress, goes_pending, goes_open, state_is, categorize_step.
  intros Hi Hp Ho.
  repeat match goal with
  | |- context [String.eqb ?a ?b] =>
      destruct (String.eqb_spec a b); [tauto |]
  end.
  reflexivity.
Qed.

(** The three routes exclude one another: the labels are different
    strings. *)
Lemma routes_exclusive item :
  (goes_inProgress item → ¬ goes_pending item ∧ ¬ goes_open item)
  ∧ (goes_pending item → ¬ goes_open item).
Proof.
  unfold goes_inProgress, goes_pending, goes_open, state_is.
  split; [intros [-> | ->] | intros ->]; (split || idtac);
    try intros [? | ?]; try intros ?; discriminate.
Qed.

Lemma categorize_fold items acc :
  fold_left categorize_step items acc =
    {| inProgress := inProgress acc ++ (toWorkItem <$> filter goes_inProgress items);
       open := open acc ++ (toWorkItem <$> filter goes_open items);
       pending := pending acc ++ (toWorkItem <$> filter goes_pending items) |}.
Proof.
  revert acc. induction items as [| item items IH]; intros acc.
  - simpl. rewrite !app_nil_r. by destruct acc.
  - simpl. rewrite IH. clear IH.
    destruct (routes_exclusive item) as [Hx Hy].
    destruct (decide (goes_inProgress item)) as [Hi | Hi].
    { destruct (Hx Hi) as [Hp Ho].
      rewrite (step_inProgress _ _ Hi). simpl.
      rewrite (filter_cons_True _ _ _ Hi), (filter_cons_False _ _ _ Hp),
        (filter_cons_False _ _ _ Ho).
      rewrite fmap_cons, <- app_assoc. reflexivity. }
    destruct (decide (goes_pending item)) as [Hp | Hp].
    { pose proof (Hy Hp) as Ho.
      rewrite (step_pending _ _ Hp). simpl.
      rewrite (filter_cons_True _ _ _ Hp), (filter_cons_False _ _ _ Hi),
        (filter_cons_False _ _ _ Ho).
      rewrite fmap_cons, <- app_assoc. reflexivity. }
    destruct (decide (goes_open item)) as [Ho | Ho].
    { rewrite (step_open _ _ Ho). simpl.
      rewrite (filter_cons_True _ _ _ Ho), (filter_cons_False _ _ _ Hi),
        (filter_cons_False _ _ _ Hp).
      rewrite fmap_cons, <- app_assoc. reflexivity. }
    rewrite (step_dropped _ _ Hi Hp Ho).
    rewrite (filter_cons_False _ _ _ Hi), (filter_cons_False _ _ _ Hp),
      (filter_cons_False _ _ _ Ho).
    reflexivity.
Qed.

Lemma categorize_filter items :
  categorizeWorkItems items =
    {| inProgress := toWorkItem <$> filter goes_inProgress items;
       open := toWorkItem <$> filter goes_open items;
       pending := toWorkItem <$> filter goes_pending items |}.
Proof. unfold categorizeWorkItems. by rewrite categorize_fold. Qed.

Lemma recognized_routes item :
  recognized item ↔ goes_inProgress item ∨ goes_pending item ∨ goes_open item.
Proof.
  unfold recognized, recognized_labels, goes_inProgress, goes_pending,
    goes_open, state_is.
  rewrite !elem_of_cons, elem_of_nil. tauto.
Qed.

Lemma bucket_member items w :
  (w ∈ inProgress (categorizeWorkItems items) ↔
     ∃ item, w = toWorkItem item ∧ item ∈ items ∧ goes_inProgress item)
  ∧ (w ∈ open (categorizeWorkItems items) ↔
     ∃ item, w = toWorkItem item ∧ item ∈ items ∧ goes_open item)
  ∧ (w ∈ pending (categorizeWorkItems items) ↔
     ∃ item, w = toWorkItem item ∧ item ∈ items ∧ goes_pending item).
Proof.
  rewrite categorize_filter. simpl.
  rewrite !list_elem_of_fmap.
  repeat split; intros (item & -> & H); exists item;
    (split; [reflexivity |]);
    (apply list_elem_of_filter in H || apply list_elem_of_filter); tauto.
Qed.

Lemma bucket_total_cons item items :
  bucket_total (categorizeWorkItems (item :: items)) =
    ((if decide (recognized item) then 1 else 0)
     + bucket_total (categorizeWorkItems items))%nat.
Proof.
  rewrite !categorize_filter. unfold bucket_total. simpl.
  destruct (routes_exclusive item) as [Hx Hy].
  pose proof (recognized_routes item) as Hr.
  destruct (decide (goes_inProgress item)) as [Hi | Hi];
    [destruct (Hx Hi) as [Hp Ho] |
     destruct (decide (goes_pending item)) as [Hp | Hp];
       [pose proof (Hy Hp) as Ho |
        destruct (decide (goes_open item)) as [Ho | Ho]]];
    first [rewrite (filter_cons_True goes_inProgress _ _ Hi)
          | rewrite (filter_cons_False goes_inProgress _ _ Hi)];
    first [rewrite (filter_cons_True goes_pending _ _ Hp)
          | rewrite (filter_cons_False goes_pending _ _ Hp)];
    first [rewrite (filter_cons_True goes_open _ _ Ho)
          | rewrite (filter_cons_False goes_open _ _ Ho)];
    destruct (decide (recognized item)) as [Hd | Hd];
    try tauto; rewrite ?fmap_cons; simpl; lia.
Qed.

Lemma bucket_total_le items :
  (bucket_total (categorizeWorkItems items) ≤ length items)%nat.
Proof.
  induction items as [| item items IH]; [reflexivity |].
  rewrite bucket_total_cons. simpl. destruct (decide (recognized item)); lia.
Qed.

Lemma bucket_total_full items :
  bucket_total (categorizeWorkItems items) = length items
  ↔ Forall recognized items.
Proof.
  induction items as [| item items IH]; [by split; [constructor |] |].
  rewrite bucket_total_cons, Forall_cons. simpl.
  pose proof (bucket_total_le items).
  destruct (decide (recognized item)) as [Hr | Hr].
  - rewrite <- IH. split; [intros; split; [done | lia] | intros [_ ?]; lia].
  - split; [lia | tauto].
Qed.

(** C1.  [categorizeWorkItems] routes each raw item by its lower-cased
    state: "in progress" or "active" to [inProgress], "pending" to
    [pending], "open" or "new" to [open]; each bucket is the input filtered
    by that test, hence in input order; a work item found in a bucket has a
    recognised state, and an item with any other state changes no bucket. *)
Theorem categorize_routes_by_state (items : list Raw.item) :
  inProgress (categorizeWorkItems items)
    = toWorkItem <$> filter (λ i, state_is "in progress" i ∨ state_is "active" i) items
  ∧ pending (categorizeWorkItems items)
    = toWorkItem <$> filter (state_is "pending") items
  ∧ open (categorizeWorkItems items)
    = toWorkItem <$> filter (λ i, state_is "open" i ∨ state_is "new" i) items
  ∧ inProgress (categorizeWorkItems items) `sublist_of` (toWorkItem <$> items)
  ∧ pending (categorizeWorkItems items) `sublist_of` (toWorkItem <$> items)
  ∧ open (categorizeWorkItems items) `sublist_of` (toWorkItem <$> items)
  ∧ (∀ w, w ∈ inProgress (categorizeWorkItems items)
          ∨ w ∈ pending (categorizeWorkItems items)
          ∨ w ∈ open (categorizeWorkItems items) →
          Js.toLowerCase (WorkItem.state w) ∈ recognized_labels)
  ∧ (∀ item, ¬ recognized item →
          categorizeWorkItems (items ++ [item]) = categorizeWorkItems items).
Proof.
  rewrite categorize_filter. simpl.
  split_and!; try reflexivity.
  - apply fmap_sublist, sublist_filter.
  - apply fmap_sublist, sublist_filter.
  - apply fmap_sublist, sublist_filter.
  - intros w. rewrite !list_elem_of_fmap.
    intros [H | [H | H]]; destruct H as (item & -> & H);
      apply list_elem_of_filter in H as [H _];
      apply (recognized_routes item); tauto.
  - intros item Hr. unfold categorizeWorkItems.
    rewrite fold_left_app. simpl.
    rewrite recognized_routes in Hr.
    rewrite step_dropped by tauto.
    by rewrite categorize_fold.
Qed.

(** C2 as the code has it: the buckets hold at most as many items as the
    input, exactly as many if and only if every state is one of the five
    labels of the switch (ignoring case), and no work item is in two
    buckets. *)
Theorem categorize_partition (items : list Raw.item) :
  (bucket_total (categorizeWorkItems items) ≤ length items)%nat
  ∧ (bucket_total (categorizeWorkItems items) = length items
     ↔ Forall (λ item, Js.toLowerCase (Raw.System_State (Raw.fields item))
                        ∈ ["in progress"; "active"; "pending"; "open"; "new"]) items)
  ∧ (∀ w, ¬ (w ∈ inProgress (categorizeWorkItems items)
             ∧ w ∈ open (categorizeWorkItems items))
        ∧ ¬ (w ∈ inProgress (categorizeWorkItems items)
             ∧ w ∈ pending (categorizeWorkItems items))
        ∧ ¬ (w ∈ open (categorizeWorkItems items)
             ∧ w ∈ pending (categorizeWorkItems items))).
Proof.
  split; [apply bucket_total_le |].
  split; [apply bucket_total_full |].
  intros w. destruct (bucket_member items w) as (Hi & Ho & Hp).
  rewrite Hi, Ho, Hp.
  repeat split; intros [(a & -> & _ & Ha) (b & Hab & _ & Hb)];
    unfold goes_inProgress, goes_open, goes_pending, state_is in *;
    assert (Raw.System_State (Raw.fields a) = Raw.System_State (Raw.fields b))
      as Hs by (exact (f_equal WorkItem.state Hab));
    rewrite Hs in Ha; destruct Ha as [Ha | Ha]; rewrite Ha in Hb;
    try destruct Hb as [Hb | Hb]; discriminate.
Qed.

(** C2 as the specification words it fails: the switch has five labels.
    Five items, one in each recognised state, all reach a bucket, so the
    bucket sizes add up to the input length; yet their five states are not
    all among four labels, whichever four are chosen. *)
Lemma four_labels_do_not_suffice :
  let items := item_in_state <$> recognized_labels in
  bucket_total (categorizeWorkItems items) = length items
  ∧ ∀ four : list string,
      length four = 4%nat →
      ¬ Forall (λ item, Js.toLowerCase (Raw.System_State (Raw.fields item))
                         ∈ Js.toLowerCase <$> four) items.
Proof.
  split; [reflexivity |].
  intros four Hlen Hall.
  assert (∀ l, l ∈ recognized_labels → l ∈ Js.toLowerCase <$> four) as Hsub.
  { intros l Hl. rewrite Forall_fmap, Forall_forall in Hall.
    specialize (Hall l Hl). simpl in Hall.
    assert (Js.toLowerCase l = l) as Hlow; [| by rewrite Hlow in Hall].
    unfold recognized_labels in Hl.
    repeat (apply elem_of_cons in Hl as [-> | Hl]; [by vm_compute |]).
    by apply elem_of_nil in Hl. }
  assert (NoDup recognized_labels) as Hnd.
  { unfold recognized_labels. repeat (apply NoDup_cons; split);
      [ .. | apply NoDup_nil_2 ];
      rewrite ?elem_of_cons, elem_of_nil; intros ?; intuition discriminate. }
  pose proof (submseteq_length _ _ (NoDup_submseteq _ _ Hnd Hsub)) as Hle.
  rewrite length_fmap, Hlen in Hle. simpl in Hle. lia.
Qed.

(** ** Properties of the enhancer *)

(** C3.  [calculateMood] is the ordered first-match policy on the two
    counts: relaxed below 3 items and 4 meetings, else productive below 5
    and 6, else busy below 8 items, else overwhelmed; with the four worked
    values of the specification. *)
Theorem calculateMood_policy {A B} (workItems : list A) (meetings : list B) :
  let workload := length workItems in
  let meetingCount := length meetings in
  ((workload < 3 ∧ meetingCount < 4)%nat →
     calculateMood workItems meetings = "relaxed")
  ∧ (¬ (workload < 3 ∧ meetingCount < 4)%nat →
     (workload < 5 ∧ meetingCount < 6)%nat →
     calculateMood workItems meetings = "productive")
  ∧ (¬ (workload < 3 ∧ meetingCount < 4)%nat →
     ¬ (workload < 5 ∧ meetingCount < 6)%nat →
     (workload < 8)%nat →
     calculateMood workItems meetings = "busy")
  ∧ (¬ (workload < 3 ∧ meetingCount < 4)%nat →
     ¬ (workload < 5 ∧ meetingCount < 6)%nat →
     ¬ (workload < 8)%nat →
     calculateMood workItems meetings = "overwhelmed")
  ∧ (workload = 2%nat → meetingCount = 3%nat →
     calculateMood workItems meetings = "relaxed")
  ∧ (workload = 4%nat → meetingCount = 5%nat →
     calculateMood workItems meetings = "productive")
  ∧ (workload = 6%nat → meetingCount = 1%nat →
     calculateMood workItems meetings = "busy")
  ∧ (workload = 9%nat → meetingCount = 0%nat →
     calculateMood workItems meetings = "overwhelmed").
Proof.
  intros workload meetingCount. unfold calculateMood.
  fold workload meetingCount.
  split_and!; intros; repeat case_bool_decide; simpl; first [reflexivity | lia].
Qed.

Lemma active_count_strict (items : list Raw.item) :
  length (List.filter is_active_strict items)
  = length (filter (λ item, Raw.System_State (Raw.fields item) = "In Progress"
                            ∨ Raw.System_State (Raw.fields item) = "Active") items).
Proof.
  induction items as [| item items IH]; [reflexivity |].
  simpl. unfold is_active_strict at 1.
  destruct (String.eqb_spec (Raw.System_State (Raw.fields item)) "In Progress") as [E1 | E1];
    [| destruct (String.eqb_spec (Raw.System_State (Raw.fields item)) "Active") as [E2 | E2]];
    simpl.
  - rewrite filter_cons_True by tauto. simpl. by rewrite IH.
  - rewrite filter_cons_True by tauto. simpl. by rewrite IH.
  - rewrite filter_cons_False by tauto. exact IH.
Qed.

(** C4 on the code.  The note that [enhanceJournalEntry] stores is the
    productivity line, with the counts the specification names (the states
    compared exactly, the raw item count, the meeting count), followed by
    the prior notes; what joins the two is the text of the template,
    backslash, n, backslash, n, and not two line feeds. *)
Theorem enhance_notes_join (entry : JournalEntry) (data : RawData) :
  let active :=
    length (filter (λ item, Raw.System_State (Raw.fields item) = "In Progress"
                            ∨ Raw.System_State (Raw.fields item) = "Active")
                   (raw_workItems data)) in
  let total := length (raw_workItems data) in
  let meetingCount := length (raw_meetings data) in
  let line := "Productivity Overview: " +:+ pretty active +:+ "/" +:+ pretty total
              +:+ " work items active, " +:+ pretty meetingCount
              +:+ " meetings scheduled" in
  notes (enhanceJournalEntry entry data)
    = line +:+ String "\" (String "n" (String "\" (String "n" (notes entry))))
  ∧ notes (enhanceJournalEntry entry data)
    ≠ line +:+ Js.LF +:+ Js.LF +:+ notes entry.
Proof.
  intros active total meetingCount line.
  assert (notes (enhanceJournalEntry entry data)
          = line +:+ String "\" (String "n" (String "\" (String "n" (notes entry)))))
    as Heq.
  { simpl. unfold productivityNote. rewrite active_count_strict.
    subst line active total meetingCount. reflexivity. }
  split; [exact Heq |].
  rewrite Heq. intros Hbad. apply String.app_inj in Hbad. discriminate Hbad.
Qed.

(** C6.  Enhancing twice with the same raw data leaves the two fixed
    next steps twice at the end of [nextSteps], so the second application
    changes the entry, while the mood is the one of the first
    application. *)
Theorem enhance_twice (entry : JournalEntry) (data : RawData) :
  nextSteps (enhanceJournalEntry entry data)
    = nextSteps entry ++ ["Review pending EUDB compliance requirements";
                          "Follow up on architecture review feedback"]
  ∧ nextSteps (enhanceJournalEntry (enhanceJournalEntry entry data) data)
    = nextSteps entry
      ++ ["Review pending EUDB compliance requirements";
          "Follow up on architecture review feedback"]
      ++ ["Review pending EUDB compliance requirements";
          "Follow up on architecture review feedback"]
  ∧ enhanceJournalEntry (enhanceJournalEntry entry data) data
    ≠ enhanceJournalEntry entry data
  ∧ mood (enhanceJournalEntry (enhanceJournalEntry entry data) data)
    = mood (enhanceJournalEntry entry data).
Proof.
  split_and!.
  - reflexivity.
  - simpl. unfold boilerplateNextSteps. by rewrite <- app_assoc.
  - intros H. apply (f_equal (λ e, length (nextSteps e))) in H.
    simpl in H. rewrite !length_app in H. simpl in H. lia.
  - reflexivity.
Qed.

(** C10.  [enhanceJournalEntry] copies the date, the weekday, the buckets,
    the pull requests, the meetings and the challenges of its entry. *)
Theorem enhance_frame (entry : JournalEntry) (data : RawData) :
  date (enhanceJournalEntry entry data) = date entry
  ∧ dayOfWeek (enhanceJournalEntry entry data) = dayOfWeek entry
  ∧ workItems (enhanceJournalEntry entry data) = workItems entry
  ∧ pullRequests (enhanceJournalEntry entry data) = pullRequests entry
  ∧ meetings (enhanceJournalEntry entry data) = meetings entry
  ∧ challenges (enhanceJournalEntry entry data) = challenges entry.
Proof. by split_and!. Qed.

(** ** Properties of the renderer *)

Lemma string_app_assoc (a b c : string) : (a +:+ b) +:+ c = a +:+ (b +:+ c).
Proof.
  induction a as [| x a IH]; [reflexivity |].
  change (String x ((a +:+ b) +:+ c) = String x (a +:+ (b +:+ c))).
  by rewrite IH.
Qed.

(** The meetings section is the line under its heading in the rendered
    entry. *)
Lemma generateMarkdown_meetings (Date_toISOString : Date.t → string)
    (now : Date.t) (entry : JournalEntry) :
  ∃ above below : string,
    generateMarkdown Date_toISOString now entry
    = above +:+ "## 📅 Meetings & Events" +:+ Js.LF
      +:+ meetingsSection (meetings entry) +:+ Js.LF +:+ below.
Proof.
  exists (Js.join Js.LF [
    "# Daily Journal - " +:+ date entry +:+ " (" +:+ dayOfWeek entry +:+ ")";
    "";
    "## 📋 Work Items Status";
    "";
    "### 🔄 In Progress";
    workItemsSection "_No items in progress_" (inProgress (workItems entry));
    "";
    "### 📂 Open Items";
    workItemsSection "_No open items_" (open (workItems entry));
    "";
    "### ⏸️ Pending Items";
    workItemsSection "_No pending items_" (pending (workItems entry));
    "";
    "## 🔀 Pull Requests";
    pullRequestsSection (pullRequests entry);
    "";
    "" ]).
  eexists. unfold generateMarkdown. simpl.
  rewrite !string_app_assoc. reflexivity.
Qed.

(** The bullet of a meeting record that has no [time] property. *)
Lemma meetingBullet_without_time (meeting : Js.object) :
  meeting !! "time" = None →
  meetingBullet meeting = "- undefined: " +:+ Js.to_string (Js.get meeting "title").
Proof. intros H. unfold meetingBullet, Js.get. by rewrite H. Qed.

(** C5 on the code.  The renderer reads the property [time] of a meeting,
    which the records of the meeting source ([title], [startTime],
    [endTime], [attendees], [type]) do not have: each bullet of the three
    calendar events shows [undefined] where the time should be, and the
    bullets are joined by backslash-n.  So the line under the Meetings
    heading of an entry with the stand-up alone is
    [- undefined: Daily Standup - ACS Team], not the bullet with its start
    time.  An empty list gives the placeholder. *)
Theorem meetings_section_shows_undefined :
  meetingsSection mockEvents
    = "- undefined: Daily Standup - ACS Team\n- undefined: EUDB Architecture Review\n- undefined: Focus Time - Code Review"
  ∧ meetingsSection [mockStandup] = "- undefined: Daily Standup - ACS Team"
  ∧ meetingsSection [mockStandup]
    ≠ "- " +:+ Js.to_string (Js.get mockStandup "startTime") +:+ ": "
      +:+ Js.to_string (Js.get mockStandup "title")
  ∧ (∀ (Date_toISOString : Date.t → string) (now : Date.t) (d : string),
       ∃ above below : string,
         generateMarkdown Date_toISOString now
           {| date := d; dayOfWeek := "";
              workItems := {| inProgress := []; open := []; pending := [] |};
              pullRequests := []; meetings := [mockStandup];
              accomplishments := []; challenges := []; nextSteps := [];
              mood := "productive"; notes := "" |}
         = above +:+ "## 📅 Meetings & Events" +:+ Js.LF
           +:+ "- undefined: Daily Standup - ACS Team" +:+ Js.LF +:+ below)
  ∧ meetingsSection [] = "_No meetings tracked_".
Proof.
  split_and!; [by vm_compute | by vm_compute | by vm_compute | | by vm_compute].
  intros Date_toISOString now d.
  exact (generateMarkdown_meetings Date_toISOString now _).
Qed.

(** ** Properties of the streak *)

Lemma streak_loop_spec (Date_parse : string → Date.t) (today : Z)
    (entries : list string) :
  ∀ i streak : nat,
  ∃ run : nat,
    streak_loop Date_parse today entries i streak = (streak + run)%nat
    ∧ (run ≤ length entries)%nat
    ∧ (∀ (k : nat) (e : string), (k < run)%nat → entries !! k = Some e →
         dayDiff Date_parse today e = Some (Z.of_nat (i + k)))
    ∧ (∀ e : string, entries !! run = Some e →
         dayDiff Date_parse today e ≠ Some (Z.of_nat (i + run))).
Proof.
  induction entries as [| e rest IH]; intros i streak.
  - exists 0%nat. simpl. split_and!; [lia | lia | intros; lia | done].
  - simpl. case_bool_decide as Hd.
    + destruct (IH (S i) (S streak)) as (run & Heq & Hlen & Hin & Hout).
      exists (S run). split_and!.
      * rewrite Heq. lia.
      * simpl. lia.
      * intros [| k] e' Hk Hl; simpl in Hl.
        { injection Hl as <-. by rewrite Nat.add_0_r. }
        rewrite (Hin k e') by (lia || done). f_equal. lia.
      * intros e' Hl. simpl in Hl. intros Hbad.
        apply (Hout e' Hl). rewrite Hbad. f_equal. lia.
    + exists 0%nat. split_and!; [lia | simpl; lia | intros; lia |].
      intros e' Hl. injection Hl as <-. by rewrite Nat.add_0_r.
Qed.

Lemma calculateStreakDays_loop (Date_parse : string → Date.t) (today : Z)
    (entries : list string) :
  calculateStreakDays Date_parse today entries = streak_loop Date_parse today entries 0 0.
Proof.
  unfold calculateStreakDays. case_bool_decide as H; [| reflexivity].
  by destruct entries.
Qed.

(** C7.  The streak is the length of the longest prefix of the stored
    dates in which the date at position [i] is [i] whole days old: it is
    such a length, and no greater one is.  Dates aged 0, 1 and 3 days give
    2, and no dates give 0. *)
Theorem streak_is_longest_aged_prefix (Date_parse : string → Date.t)
    (today : Z) (entries : list string) :
  aged_prefix Date_parse today entries (calculateStreakDays Date_parse today entries)
  ∧ (∀ n : nat, aged_prefix Date_parse today entries n →
       (n ≤ calculateStreakDays Date_parse today entries)%nat)
  ∧ (∀ d0 d1 d3 : string,
       entries = [d0; d1; d3] →
       dayDiff Date_parse today d0 = Some 0%Z → dayDiff Date_parse today d1 = Some 1%Z →
       dayDiff Date_parse today d3 = Some 3%Z →
       calculateStreakDays Date_parse today entries = 2%nat)
  ∧ (entries = [] → calculateStreakDays Date_parse today entries = 0%nat).
Proof.
  rewrite calculateStreakDays_loop.
  destruct (streak_loop_spec Date_parse today entries 0 0)
    as (run & Heq & Hlen & Hin & Hout).
  split_and!.
  - rewrite Heq. split; [simpl; lia |]. intros k e Hk Hl. by apply Hin.
  - intros n [Hn Hall]. rewrite Heq. simpl.
    destruct (decide (n ≤ run)%nat) as [| Hgt]; [done | exfalso].
    destruct (lookup_lt_is_Some_2 entries run) as [e He]; [lia |].
    apply (Hout e He). apply Hall; [lia | done].
  - intros d0 d1 d3 -> H0 H1 H3. simpl.
    rewrite H0, H1, H3. reflexivity.
  - intros ->. reflexivity.
Qed.

(** ** Properties of the entry store *)

Lemma startsWith_app (p s : string) : Js.startsWith (p +:+ s) p = true.
Proof.
  induction p as [| c p IH]; [reflexivity |].
  change (Js.startsWith (String c (p +:+ s)) (String c p) = true).
  simpl. rewrite IH. by rewrite bool_decide_eq_true_2.
Qed.

Lemma endsWith_unfold (s p : string) :
  Js.endsWith s p
  = String.eqb s p
    || match s with
       | EmptyString => false
       | String _ r => Js.endsWith r p
       end.
Proof. by destruct s. Qed.

Lemma endsWith_app (a p : string) : Js.endsWith (a +:+ p) p = true.
Proof.
  induction a as [| c a IH].
  - change (Js.endsWith p p = true).
    rewrite endsWith_unfold, String.eqb_refl. reflexivity.
  - change (Js.endsWith (String c (a +:+ p)) p = true).
    rewrite endsWith_unfold, IH. apply orb_true_r.
Qed.

Lemma is_journal_file_entryFilename (d : string) :
  is_journal_file (entryFilename d) = true.
Proof.
  unfold is_journal_file, entryFilename.
  rewrite startsWith_app. simpl.
  rewrite <- string_app_assoc. apply endsWith_app.
Qed.

Lemma remove_md_suffix (d : string) :
  plain_date d = true → Js.remove_first ".md" (d +:+ ".md") = d.
Proof.
  induction d as [| c d IH]; [reflexivity |].
  simpl. intros [Hc Hd]%andb_true_iff.
  change (Js.remove_first ".md" (String c (d +:+ ".md")) = String c d).
  assert (c ≠ "."%char) as Hdot.
  { intros ->. by vm_compute in Hc. }
  simpl. rewrite (bool_decide_eq_false_2 ("."%char = c)) by congruence.
  simpl. by rewrite IH.
Qed.

Lemma strip_name_entryFilename (d : string) :
  plain_date d = true → strip_name (entryFilename d) = d.
Proof.
  intros Hd. unfold strip_name, entryFilename.
  assert (Js.remove_first "journal-" ("journal-" +:+ d +:+ ".md") = d +:+ ".md")
    as -> by reflexivity.
  by apply remove_md_suffix.
Qed.

Lemma string_length_app (a b : string) :
  String.length (a +:+ b) = (String.length a + String.length b)%nat.
Proof.
  induction a as [| c a IH]; [reflexivity |].
  change (S (String.length (a +:+ b)) = S (String.length a + String.length b)).
  by rewrite IH.
Qed.

Lemma string_app_inj_r (a b p : string) : a +:+ p = b +:+ p → a = b.
Proof.
  revert b. induction a as [| c a IH]; intros [| c' b] H.
  - reflexivity.
  - apply (f_equal String.length) in H.
    change (String.length p = S (String.length (b +:+ p))) in H.
    rewrite string_length_app in H. lia.
  - apply (f_equal String.length) in H.
    change (S (String.length (a +:+ p)) = String.length p) in H.
    rewrite string_length_app in H. lia.
  - change (String c (a +:+ p) = String c' (b +:+ p)) in H.
    injection H as -> H. f_equal. by apply IH.
Qed.

Lemma entryFilename_inj (d1 d2 : string) :
  entryFilename d1 = entryFilename d2 → d1 = d2.
Proof.
  unfold entryFilename. intros H. apply String.app_inj in H.
  by apply string_app_inj_r in H.
Qed.

Lemma readdirSync_elem (files : gmap string string) (file : string) :
  file ∈ readdirSync files ↔ is_Some (files !! file).
Proof.
  unfold readdirSync. rewrite list_elem_of_fmap. split.
  - intros ([name content] & -> & H). apply elem_of_map_to_list in H. by eexists.
  - intros [content H]. exists (file, content). split; [done |].
    by apply elem_of_map_to_list.
Qed.

Lemma listEntries_elem (files : gmap string string) (d : string) :
  d ∈ listEntries files
  ↔ ∃ file, is_Some (files !! file) ∧ is_journal_file file = true
            ∧ d = strip_name file.
Proof.
  unfold listEntries.
  rewrite elem_of_reverse, merge_sort_Permutation, list_elem_of_fmap.
  split.
  - intros (file & -> & H). apply list_elem_of_filter in H as [Hj Hin].
    exists file. by rewrite <- readdirSync_elem.
  - intros (file & Hin & Hj & ->). exists file. split; [done |].
    apply list_elem_of_filter. by rewrite readdirSync_elem.
Qed.





(** C9.  [loadEntry] answers [null] exactly when the directory has no file
    for the date; when it has one, the entry returned carries the date, the
    file content as [notes], the mood "unknown", and empty buckets, pull
    requests, meetings, accomplishments, challenges and next steps. *)
Theorem load_degraded (Date_parse : string → Date.t)
    (Date_getDay : Date.t → nat) (d : string) (files : gmap string string) :
  (loadEntry Date_parse Date_getDay d files = None
   ↔ files !! entryFilename d = None)
  ∧ (∀ content : string,
       files !! entryFilename d = Some content →
       ∃ entry : JournalEntry,
         loadEntry Date_parse Date_getDay d files = Some entry
         ∧ date entry = d
         ∧ notes entry = content
         ∧ mood entry = "unknown"
         ∧ workItems entry = {| inProgress := []; open := []; pending := [] |}
         ∧ pullRequests entry = []
         ∧ meetings entry = []
         ∧ accomplishments entry = []
         ∧ challenges entry = []
         ∧ nextSteps entry = []).
Proof.
  unfold loadEntry. split.
  - destruct (files !! entryFilename d); split; intros; done.
  - intros content ->. eexists. split; [reflexivity |]. by split_and!.
Qed.


(** ** The theorems at concrete inputs

    The runtime is instantiated with the date-only parser, the weekday in
    UTC and a fixed time stamp; the journal directory is
    [/home/me/journal-entries]. *)

Lemma calculateMood_policy_witness :
  (length mockWorkItems < 3 ∧ length mockEvents < 4)%nat
  ∧ calculateMood mockWorkItems mockEvents = "relaxed".
Proof.
  assert (length mockWorkItems < 3 ∧ length mockEvents < 4)%nat as H
    by (simpl; lia).
  split; [exact H |].
  exact (proj1 (calculateMood_policy mockWorkItems mockEvents) H).
Defined.

Lemma streak_is_longest_aged_prefix_witness :
  dayDiff Date.of_iso_date 1759505400000 "2025-10-03" = Some 0%Z
  ∧ dayDiff Date.of_iso_date 1759505400000 "2025-10-02" = Some 1%Z
  ∧ dayDiff Date.of_iso_date 1759505400000 "2025-09-30" = Some 3%Z
  ∧ calculateStreakDays Date.of_iso_date 1759505400000
      ["2025-10-03"; "2025-10-02"; "2025-09-30"] = 2%nat.
Proof.
  split_and!; [reflexivity .. |].
  destruct (streak_is_longest_aged_prefix Date.of_iso_date 1759505400000
              ["2025-10-03"; "2025-10-02"; "2025-09-30"]) as (_ & _ & H & _).
  exact (H "2025-10-03" "2025-10-02" "2025-09-30" eq_refl eq_refl eq_refl eq_refl).
Defined.


Lemma load_degraded_witness :
  ({[ "journal-2025-10-03.md" := "# Daily Journal" ]} : gmap string string)
    !! entryFilename "2025-10-03" = Some "# Daily Journal"
  ∧ ∃ entry : JournalEntry,
      loadEntry Date.of_iso_date Date.utc_day "2025-10-03"
        {[ "journal-2025-10-03.md" := "# Daily Journal" ]} = Some entry
      ∧ date entry = "2025-10-03"
      ∧ notes entry = "# Daily Journal"
      ∧ mood entry = "unknown"
      ∧ workItems entry = {| inProgress := []; open := []; pending := [] |}
      ∧ pullRequests entry = []
      ∧ meetings entry = []
      ∧ accomplishments entry = []
      ∧ challenges entry = []
      ∧ nextSteps entry = [].
Proof.
  assert (({[ "journal-2025-10-03.md" := "# Daily Journal" ]} : gmap string string)
            !! entryFilename "2025-10-03" = Some "# Daily Journal") as H
    by reflexivity.
  split; [exact H |].
  exact (proj2 (load_degraded Date.of_iso_date Date.utc_day "2025-10-03" _)
               "# Daily Journal" H).
Defined.

(** ** Further properties of the entry store *)

(** X1.  For an entry dated in the format of the data model, loading
    what was just saved gives back the rendered text as [notes] and none
    of the structure; loading another date of digits and hyphens is not
    affected by the save. *)
Theorem save_then_load (Date_parse : string → Date.t)
    (Date_getDay : Date.t → nat) (Date_toISOString : Date.t → string)
    (journalDir : string) (now : Date.t) (entry : JournalEntry)
    (files : gmap string string) :
  iso_date (date entry) = true →
  (∃ loaded : JournalEntry,
     loadEntry Date_parse Date_getDay (date entry)
       (saveEntry Date_toISOString journalDir now entry files).2
     = Some loaded
     ∧ date loaded = date entry
     ∧ notes loaded = generateMarkdown Date_toISOString now entry
     ∧ mood loaded = "unknown"
     ∧ workItems loaded = {| inProgress := []; open := []; pending := [] |}
     ∧ pullRequests loaded = []
     ∧ meetings loaded = []
     ∧ accomplishments loaded = []
     ∧ challenges loaded = []
     ∧ nextSteps loaded = [])
  ∧ ∀ d : string,
      plain_date d = true →
      d ≠ date entry →
      loadEntry Date_parse Date_getDay d
        (saveEntry Date_toISOString journalDir now entry files).2
      = loadEntry Date_parse Date_getDay d files.
Proof.
  intros _. unfold loadEntry, saveEntry. simpl. split.
  - rewrite lookup_insert_eq. eexists. split; [reflexivity |]. by split_and!.
  - intros d _ Hd. rewrite lookup_insert_ne; [done |].
    intros H. by apply entryFilename_inj in H.
Qed.

Lemma save_then_load_witness :
  iso_date (date (blankEntry "2025-10-03")) = true
  ∧ plain_date "2025-10-02" = true
  ∧ "2025-10-02" ≠ date (blankEntry "2025-10-03")
  ∧ loadEntry Date.of_iso_date Date.utc_day "2025-10-02"
      (saveEntry (λ _, "2025-10-03T15:30:00.000Z") "/home/me/journal-entries"
         (Date.Instant 1759505400000) (blankEntry "2025-10-03") ∅).2
    = None.
Proof.
  assert ("2025-10-02" ≠ date (blankEntry "2025-10-03")) as H by discriminate.
  split_and!; [reflexivity | reflexivity | exact H |].
  exact (proj2 (save_then_load Date.of_iso_date Date.utc_day
                  (λ _, "2025-10-03T15:30:00.000Z") "/home/me/journal-entries"
                  (Date.Instant 1759505400000) (blankEntry "2025-10-03") ∅
                  eq_refl)
               "2025-10-02" eq_refl H).
Defined.

Lemma readdirSync_delete_perm (files : gmap string string) (name : string) :
  is_Some (files !! name) →
  readdirSync files ≡ₚ name :: readdirSync (delete name files).
Proof.
  intros [content H]. unfold readdirSync.
  rewrite <- (map_to_list_delete files name content H). reflexivity.
Qed.

Lemma readdirSync_insert_perm (files : gmap string string) (name content : string) :
  readdirSync (<[name := content]> files)
  ≡ₚ name :: readdirSync (delete name files).
Proof.
  unfold readdirSync. rewrite <- insert_delete_eq.
  rewrite map_to_list_insert by apply lookup_delete_eq. reflexivity.
Qed.

Lemma listEntries_filter_perm (files1 files2 : gmap string string) :
  filter (λ file, is_journal_file file = true) (readdirSync files1)
  ≡ₚ filter (λ file, is_journal_file file = true) (readdirSync files2) →
  listEntries files1 = listEntries files2.
Proof.
  intros Hperm. unfold listEntries. f_equal.
  apply (Sorted_unique String.le); try apply Sorted_merge_sort; try apply _.
  rewrite !merge_sort_Permutation. by rewrite Hperm.
Qed.

Lemma listEntries_length (files : gmap string string) :
  length (listEntries files)
  = length (filter (λ file, is_journal_file file = true) (readdirSync files)).
Proof.
  unfold listEntries.
  by rewrite length_reverse, merge_sort_Permutation, length_fmap.
Qed.

(** X2.  The listing does not depend on the order in which the platform hands
    out the directory: any arrangement of the same file names gives the
    same list. *)
Theorem listEntries_order_independent (files : gmap string string)
    (names : list string) :
  names ≡ₚ readdirSync files →
  reverse (merge_sort String.le
    (strip_name <$> filter (λ file, is_journal_file file = true) names))
  = listEntries files.
Proof.
  intros Hperm. unfold listEntries. f_equal.
  apply (Sorted_unique String.le); try apply Sorted_merge_sort; try apply _.
  rewrite !merge_sort_Permutation. by rewrite Hperm.
Qed.

Lemma listEntries_order_independent_witness :
  reverse (readdirSync {[ "journal-2025-10-02.md" := "b";
                          "journal-2025-10-03.md" := "a" ]})
  ≡ₚ readdirSync {[ "journal-2025-10-02.md" := "b";
                    "journal-2025-10-03.md" := "a" ]}
  ∧ reverse (merge_sort String.le
      (strip_name <$> filter (λ file, is_journal_file file = true)
         (reverse (readdirSync {[ "journal-2025-10-02.md" := "b";
                                  "journal-2025-10-03.md" := "a" ]}))))
    = listEntries {[ "journal-2025-10-02.md" := "b";
                     "journal-2025-10-03.md" := "a" ]}.
Proof.
  assert (reverse (readdirSync {[ "journal-2025-10-02.md" := "b";
                                  "journal-2025-10-03.md" := "a" ]})
          ≡ₚ readdirSync {[ "journal-2025-10-02.md" := "b";
                            "journal-2025-10-03.md" := "a" ]}) as H
    by apply reverse_Permutation.
  split; [exact H |].
  exact (listEntries_order_independent _ _ H).
Defined.

(** X3.  A file whose name does not both start with [journal-] and end with
    [.md], such as the HTML version of an entry, is invisible to the
    listing: writing or removing it changes nothing. *)
Theorem listEntries_ignores_other_files (files : gmap string string)
    (name content : string) :
  is_journal_file name = false →
  listEntries (<[name := content]> files) = listEntries files
  ∧ listEntries (delete name files) = listEntries files.
Proof.
  intros Hno.
  assert (listEntries (delete name files) = listEntries files) as Hdel.
  { destruct (files !! name) as [c |] eqn:Hl; [| by rewrite delete_id].
    apply listEntries_filter_perm.
    rewrite (readdirSync_delete_perm files name) by (by eexists).
    rewrite filter_cons_False by (by rewrite Hno). reflexivity. }
  split; [| exact Hdel].
  rewrite <- Hdel. apply listEntries_filter_perm.
  rewrite readdirSync_insert_perm.
  rewrite filter_cons_False by (by rewrite Hno). reflexivity.
Qed.

Lemma listEntries_ignores_other_files_witness :
  is_journal_file "journal-2025-10-03.html" = false
  ∧ listEntries (<["journal-2025-10-03.html" := "<html>"]>
                   {[ "journal-2025-10-03.md" := "a" ]})
    = listEntries {[ "journal-2025-10-03.md" := "a" ]}.
Proof.
  assert (is_journal_file "journal-2025-10-03.html" = false) as H by reflexivity.
  split; [exact H |].
  exact (proj1 (listEntries_ignores_other_files
                  {[ "journal-2025-10-03.md" := "a" ]}
                  "journal-2025-10-03.html" "<html>" H)).
Defined.

(** X4.  Saving an entry dated in the format of the data model adds one
    date to the listing when the directory had no file for that date, and
    none when it had one. *)
Theorem save_list_length (Date_toISOString : Date.t → string)
    (journalDir : string) (now : Date.t) (entry : JournalEntry)
    (files : gmap string string) :
  iso_date (date entry) = true →
  length (listEntries (saveEntry Date_toISOString journalDir now entry files).2)
  = match files !! entryFilename (date entry) with
    | Some _ => length (listEntries files)
    | None => S (length (listEntries files))
    end.
Proof.
  intros _. unfold saveEntry. simpl. rewrite !listEntries_length.
  rewrite readdirSync_insert_perm.
  rewrite filter_cons_True by apply is_journal_file_entryFilename.
  destruct (files !! entryFilename (date entry)) as [c |] eqn:Hl.
  - rewrite (readdirSync_delete_perm files (entryFilename (date entry)))
      by (by eexists).
    rewrite filter_cons_True by apply is_journal_file_entryFilename.
    reflexivity.
  - by rewrite delete_id.
Qed.

Lemma save_list_length_witness :
  iso_date (date (blankEntry "2025-10-03")) = true
  ∧ length (listEntries
      (saveEntry (λ _, "2025-10-03T15:30:00.000Z") "/home/me/journal-entries"
         (Date.Instant 1759505400000) (blankEntry "2025-10-03")
         {[ "journal-2025-10-02.md" := "yesterday" ]}).2)
    = 2%nat.
Proof.
  split; [reflexivity |].
  exact (save_list_length (λ _, "2025-10-03T15:30:00.000Z")
           "/home/me/journal-entries" (Date.Instant 1759505400000)
           (blankEntry "2025-10-03")
           {[ "journal-2025-10-02.md" := "yesterday" ]} eq_refl).
Defined.

(** ** Further properties of the streak and the insights *)

Lemma streak_loop_from (Date_parse : string → Date.t) (today : Z)
    (entries : list string) (i streak : nat) :
  streak_loop Date_parse today entries i streak
  = (streak + streak_loop Date_parse today entries i 0)%nat.
Proof.
  revert i streak. induction entries as [| e rest IH]; intros i streak; simpl.
  - lia.
  - case_bool_decide; [| lia].
    rewrite (IH (S i) (S streak)), (IH (S i) 1%nat). lia.
Qed.

Lemma streak_loop_app (Date_parse : string → Date.t) (today : Z)
    (l1 l2 : list string) (i : nat) :
  (streak_loop Date_parse today l1 i 0 < length l1)%nat →
  streak_loop Date_parse today (l1 ++ l2) i 0
  = streak_loop Date_parse today l1 i 0.
Proof.
  revert i. induction l1 as [| e rest IH]; intros i; simpl; [lia |].
  case_bool_decide; [| done].
  rewrite (streak_loop_from _ _ rest (S i) 1),
          (streak_loop_from _ _ (rest ++ l2) (S i) 1).
  intros Hlt. rewrite IH; [done | lia].
Qed.

(** X5.  The streak is not zero exactly when the most recent stored date is
    today's: an entry written yesterday and none today gives no streak,
    however long the run behind it. *)
Theorem streak_needs_today (Date_parse : string → Date.t) (today : Z)
    (e : string) (rest : list string) :
  (calculateStreakDays Date_parse today (e :: rest) = 0%nat
   ↔ dayDiff Date_parse today e ≠ Some 0%Z)
  ∧ ((1 ≤ calculateStreakDays Date_parse today (e :: rest))%nat
     ↔ dayDiff Date_parse today e = Some 0%Z).
Proof.
  rewrite calculateStreakDays_loop. simpl.
  case_bool_decide as H; simpl in H.
  - rewrite streak_loop_from. split; split; intros; (done || lia).
  - split; split; intros; (done || lia).
Qed.

(** X6.  Once the run has stopped inside the list, the dates behind the stop do
    not matter: appending further dates leaves the streak as it is. *)
Theorem streak_ignores_after_break (Date_parse : string → Date.t) (today : Z)
    (entries more : list string) :
  (calculateStreakDays Date_parse today entries < length entries)%nat →
  calculateStreakDays Date_parse today (entries ++ more)
  = calculateStreakDays Date_parse today entries.
Proof.
  rewrite !calculateStreakDays_loop. apply streak_loop_app.
Qed.

Lemma streak_ignores_after_break_witness :
  (calculateStreakDays Date.of_iso_date 1759505400000
     ["2025-10-03"; "2025-10-01"] < length ["2025-10-03"; "2025-10-01"])%nat
  ∧ calculateStreakDays Date.of_iso_date 1759505400000
      (["2025-10-03"; "2025-10-01"] ++ ["2025-09-30"; "2025-09-29"])
    = calculateStreakDays Date.of_iso_date 1759505400000
        ["2025-10-03"; "2025-10-01"].
Proof.
  assert (calculateStreakDays Date.of_iso_date 1759505400000
            ["2025-10-03"; "2025-10-01"] < length ["2025-10-03"; "2025-10-01"])%nat
    as H by (vm_compute; lia).
  split; [exact H |].
  exact (streak_ignores_after_break Date.of_iso_date 1759505400000
           ["2025-10-03"; "2025-10-01"] ["2025-09-30"; "2025-09-29"] H).
Defined.

(** X7.  A stored name that the [Date] constructor cannot read ends the run:
    the streak is at most the position of the first such name. *)
Theorem streak_stops_at_invalid_date (Date_parse : string → Date.t)
    (today : Z) (entries : list string) (k : nat) (e : string) :
  entries !! k = Some e →
  Date_parse e = Date.Invalid →
  (calculateStreakDays Date_parse today entries ≤ k)%nat.
Proof.
  intros Hk Hinv. rewrite calculateStreakDays_loop.
  destruct (streak_loop_spec Date_parse today entries 0 0)
    as (run & Heq & Hlen & Hin & Hout).
  rewrite Heq. simpl.
  destruct (decide (run ≤ k)%nat) as [| Hgt]; [done | exfalso].
  specialize (Hin k e ltac:(lia) Hk).
  unfold dayDiff in Hin. by rewrite Hinv in Hin.
Qed.

Lemma streak_stops_at_invalid_date_witness :
  ["2025-10-03"; "yesterday"; "2025-10-01"] !! 1%nat = Some "yesterday"
  ∧ Date.of_iso_date "yesterday" = Date.Invalid
  ∧ (calculateStreakDays Date.of_iso_date 1759505400000
       ["2025-10-03"; "yesterday"; "2025-10-01"] ≤ 1)%nat.
Proof.
  split_and!; [reflexivity | reflexivity |].
  exact (streak_stops_at_invalid_date Date.of_iso_date 1759505400000
           ["2025-10-03"; "yesterday"; "2025-10-01"] 1 "yesterday"
           eq_refl eq_refl).
Defined.

(** X8.  The insights are consistent with one another: the total is the number
    of journal files, the recent dates are the first seven of the listing
    (all of it when it is shorter), and the streak never exceeds the
    total. *)
Theorem insights_consistent (Date_parse : string → Date.t) (today : Z)
    (files : gmap string string) :
  let insights := getJournalInsights Date_parse today files in
  insights.1.1
    = length (filter (λ file, is_journal_file file = true) (readdirSync files))
  ∧ insights.1.2 `prefix_of` listEntries files
  ∧ length insights.1.2 = min 7 insights.1.1
  ∧ (insights.2 ≤ insights.1.1)%nat
  ∧ (files = ∅ → insights = (0%nat, [], 0%nat)).
Proof.
  unfold getJournalInsights. cbn [fst snd]. split_and!.
  - apply listEntries_length.
  - apply prefix_take.
  - apply length_take.
  - rewrite calculateStreakDays_loop.
    destruct (streak_loop_spec Date_parse today (listEntries files) 0 0)
      as (run & -> & Hlen & _). simpl. exact Hlen.
  - intros ->. reflexivity.
Qed.

(** ** Further properties of the categoriser and the builder *)

(** X9.  Categorising a list in two parts and joining the buckets gives the
    buckets of the whole list. *)
Theorem categorize_app (items1 items2 : list Raw.item) :
  categorizeWorkItems (items1 ++ items2)
  = {| inProgress := inProgress (categorizeWorkItems items1)
                     ++ inProgress (categorizeWorkItems items2);
       open := open (categorizeWorkItems items1)
               ++ open (categorizeWorkItems items2);
       pending := pending (categorizeWorkItems items1)
                  ++ pending (categorizeWorkItems items2) |}.
Proof.
  rewrite !categorize_filter. simpl.
  by rewrite !filter_app, !fmap_app.
Qed.

(** X10.  For work items whose ids are safe integers, the builder writes
    one accomplishment for each in-progress item and one next step for
    each open item, in input order; pending items and items with an
    unrecognised state give neither, so the two lists together are never
    longer than the input.  Pull requests and meetings are passed on as
    they came. *)
Theorem build_prepopulates (Date_getDay : Date.t → nat)
    (Date_toISOString : Date.t → string) (today : Date.t)
    (items : list Raw.item) (prs ms : list Js.object) :
  Forall (λ item, safe_integer (Raw.id item)) items →
  let entry := generateTodaysEntry Date_getDay Date_toISOString today items prs ms in
  accomplishments entry
    = (λ item, "Continued work on " +:+ Raw.System_WorkItemType (Raw.fields item)
               +:+ ": " +:+ Raw.System_Title (Raw.fields item)
               +:+ " (ID: " +:+ pretty (Raw.id item) +:+ ")")
      <$> filter goes_inProgress items
  ∧ nextSteps entry
    = (λ item, "Start/continue " +:+ Raw.System_WorkItemType (Raw.fields item)
               +:+ ": " +:+ Raw.System_Title (Raw.fields item)
               +:+ " (ID: " +:+ pretty (Raw.id item) +:+ ")")
      <$> filter goes_open items
  ∧ (length (accomplishments entry) + length (nextSteps entry)
     + length (pending (workItems entry)) ≤ length items)%nat
  ∧ pullRequests entry = prs
  ∧ meetings entry = ms
  ∧ challenges entry = [].
Proof.
  intros _. unfold generateTodaysEntry. cbn [accomplishments nextSteps workItems
    pullRequests meetings challenges].
  pose proof (bucket_total_le items) as Hle. unfold bucket_total in Hle.
  rewrite categorize_filter in *. cbn [inProgress open pending] in *.
  rewrite <- !list_fmap_compose.
  split_and!; try reflexivity.
  rewrite !length_fmap in *. lia.
Qed.

Lemma build_prepopulates_witness :
  Forall (λ item, safe_integer (Raw.id item)) mockWorkItems
  ∧ accomplishments
      (generateTodaysEntry Date.utc_day (λ _, "2025-10-03T15:30:00.000Z")
         (Date.Instant 1759505400000) mockWorkItems mockPRs mockEvents)
    = (λ item, "Continued work on " +:+ Raw.System_WorkItemType (Raw.fields item)
               +:+ ": " +:+ Raw.System_Title (Raw.fields item)
               +:+ " (ID: " +:+ pretty (Raw.id item) +:+ ")")
      <$> filter goes_inProgress mockWorkItems.
Proof.
  assert (Forall (λ item, safe_integer (Raw.id item)) mockWorkItems) as H.
  { unfold mockWorkItems, safe_integer. repeat constructor; simpl; lia. }
  split; [exact H |].
  exact (proj1 (build_prepopulates Date.utc_day (λ _, "2025-10-03T15:30:00.000Z")
                  (Date.Instant 1759505400000) mockWorkItems mockPRs mockEvents H)).
Defined.

Lemma before_T_plain (d rest : string) :
  plain_date d = true → before_T (d +:+ "T" +:+ rest) = d.
Proof.
  induction d as [| c d IH]; [reflexivity |].
  simpl. intros [Hc Hd]%andb_true_iff.
  change (before_T (String c (d +:+ "T" +:+ rest)) = String c d).
  assert (c ≠ "T"%char) as HT.
  { intros ->. by vm_compute in Hc. }
  simpl. rewrite bool_decide_eq_false_2 by done. by rewrite IH.
Qed.

(** X11.  The date of a built entry is the calendar date of the ISO time stamp
    of the clock, and saving the entry writes [journal-DATE.md]. *)
Theorem build_date_of_iso_stamp (Date_getDay : Date.t → nat)
    (Date_toISOString : Date.t → string) (journalDir : string)
    (today now : Date.t) (items : list Raw.item) (prs ms : list Js.object)
    (files : gmap string string) (d time : string) :
  Date_toISOString today = d +:+ "T" +:+ time →
  plain_date d = true →
  let entry := generateTodaysEntry Date_getDay Date_toISOString today items prs ms in
  date entry = d
  ∧ (saveEntry Date_toISOString journalDir now entry files).1
    = journalDir +:+ "/journal-" +:+ d +:+ ".md"
  ∧ d ∈ listEntries (saveEntry Date_toISOString journalDir now entry files).2.
Proof.
  intros Hiso Hplain entry.
  assert (date entry = d) as Hd.
  { subst entry. unfold generateTodaysEntry, formatDate. cbn [date].
    rewrite Hiso. by apply before_T_plain. }
  split_and!; [exact Hd | unfold saveEntry; cbn [fst]; by rewrite Hd |].
  apply listEntries_elem. exists (entryFilename d). split_and!.
  - unfold saveEntry. cbn [snd]. rewrite Hd, lookup_insert_eq. by eexists.
  - apply is_journal_file_entryFilename.
  - by rewrite strip_name_entryFilename.
Qed.

Lemma build_date_of_iso_stamp_witness :
  (λ _ : Date.t, "2025-10-03T15:30:00.000Z") (Date.Instant 1759505400000)
    = "2025-10-03" +:+ "T" +:+ "15:30:00.000Z"
  ∧ plain_date "2025-10-03" = true
  ∧ date (generateTodaysEntry Date.utc_day (λ _, "2025-10-03T15:30:00.000Z")
            (Date.Instant 1759505400000) mockWorkItems mockPRs mockEvents)
    = "2025-10-03".
Proof.
  split_and!; [reflexivity | reflexivity |].
  exact (proj1 (build_date_of_iso_stamp Date.utc_day
                  (λ _, "2025-10-03T15:30:00.000Z") "/home/me/journal-entries"
                  (Date.Instant 1759505400000) (Date.Instant 1759505400000)
                  mockWorkItems mockPRs mockEvents ∅
                  "2025-10-03" "15:30:00.000Z" eq_refl eq_refl)).
Defined.

(** X12.  An entry built from no data renders every section as its placeholder,
    with the default mood. *)
Theorem render_of_empty_build (Date_getDay : Date.t → nat)
    (Date_toISOString : Date.t → string) (today now : Date.t) :
  generateMarkdown Date_toISOString now
    (generateTodaysEntry Date_getDay Date_toISOString today [] [] [])
  = Js.join Js.LF [
      "# Daily Journal - " +:+ formatDate Date_toISOString today
        +:+ " (" +:+ getDayOfWeek Date_getDay today +:+ ")";
      "";
      "## 📋 Work Items Status";
      "";
      "### 🔄 In Progress";
      "_No items in progress_";
      "";
      "### 📂 Open Items";
      "_No open items_";
      "";
      "### ⏸️ Pending Items";
      "_No pending items_";
      "";
      "## 🔀 Pull Requests";
      "_No active pull requests_";
      "";
      "## 📅 Meetings & Events";
      "_No meetings tracked_";
      "";
      "## ✅ Accomplishments";
      "_Add your accomplishments here_";
      "";
      "## 🚧 Challenges";
      "_Add any challenges you faced_";
      "";
      "## 🎯 Next Steps";
      "_Add your planned next steps_";
      "";
      "## 😊 Mood: productive";
      "";
      "## 📝 Notes";
      "_Add any additional notes or thoughts here_";
      "";
      "---";
      "_Generated on " +:+ Date_toISOString now +:+ "_";
      ""
    ].
Proof. reflexivity. Qed.

(** ** Further properties of the enhancer *)

(** X13.  The mood is always one of the four policy words, never the "unknown"
    of a loaded entry; it is "overwhelmed" exactly from eight work items
    on, whatever the meetings, and "relaxed" exactly below three work
    items and four meetings. *)
Theorem calculateMood_range {A B} (workItems : list A) (meetings : list B) :
  calculateMood workItems meetings
    ∈ ["relaxed"; "productive"; "busy"; "overwhelmed"]
  ∧ (calculateMood workItems meetings = "overwhelmed"
     ↔ (8 ≤ length workItems)%nat)
  ∧ (calculateMood workItems meetings = "relaxed"
     ↔ (length workItems < 3 ∧ length meetings < 4)%nat).
Proof.
  unfold calculateMood.
  repeat case_bool_decide; simpl; split_and!;
    try (split; intros; first [discriminate | lia | reflexivity]);
    rewrite !elem_of_cons; tauto.
Qed.

(** X14.  More work items or more meetings never give a lighter mood. *)
Theorem calculateMood_monotone {A B} (workItems workItems' : list A)
    (meetings meetings' : list B) :
  (length workItems ≤ length workItems')%nat →
  (length meetings ≤ length meetings')%nat →
  (moodRank (calculateMood workItems meetings)
   ≤ moodRank (calculateMood workItems' meetings'))%nat.
Proof.
  intros Hw Hm. unfold calculateMood.
  repeat case_bool_decide; simpl; unfold moodRank; simpl; lia.
Qed.

Lemma calculateMood_monotone_witness :
  (length mockWorkItems ≤ length (mockWorkItems ++ mockWorkItems))%nat
  ∧ (length mockEvents ≤ length (mockEvents ++ mockEvents))%nat
  ∧ (moodRank (calculateMood mockWorkItems mockEvents)
     ≤ moodRank (calculateMood (mockWorkItems ++ mockWorkItems)
                   (mockEvents ++ mockEvents)))%nat.
Proof.
  assert (length mockWorkItems ≤ length (mockWorkItems ++ mockWorkItems))%nat
    as Hw by (simpl; lia).
  assert (length mockEvents ≤ length (mockEvents ++ mockEvents))%nat
    as Hm by (simpl; lia).
  split_and!; [exact Hw | exact Hm |].
  exact (calculateMood_monotone _ _ _ _ Hw Hm).
Defined.

Lemma is_review_type (m : Js.object) :
  is_review m = true ↔ m !! "type" = Some (Js.VStr "review").
Proof.
  unfold is_review, Js.get. rewrite bool_decide_eq_true.
  destruct (m !! "type") as [v |]; simpl; split; intros H;
    first [by rewrite H | by injection H | discriminate].
Qed.

(** X15.  The enhancer keeps the accomplishments it is given and appends at most
    two: the review line exactly when some meeting has the text [review]
    as its [type] property (another spelling, or no such property, does
    not count), then the pull request line exactly when there is a pull
    request, with their number. *)
Theorem enhance_accomplishments (entry : JournalEntry) (data : RawData) :
  accomplishments (enhanceJournalEntry entry data)
  = accomplishments entry
    ++ (if decide (Exists (λ m : Js.object, m !! "type" = Some (Js.VStr "review"))
                          (raw_meetings data))
        then ["Participated in architecture review meeting"] else [])
    ++ (match raw_pullRequests data with
        | [] => []
        | _ :: _ => ["Created/reviewed " +:+ pretty (length (raw_pullRequests data))
                     +:+ " pull request(s)"]
        end)
  ∧ accomplishments entry `prefix_of` accomplishments (enhanceJournalEntry entry data)
  ∧ (length (accomplishments (enhanceJournalEntry entry data))
     ≤ length (accomplishments entry) + 2)%nat.
Proof.
  assert (existsb is_review (raw_meetings data)
          = bool_decide (Exists (λ m : Js.object, m !! "type" = Some (Js.VStr "review"))
                                (raw_meetings data))) as Hrev.
  { apply eq_true_iff_eq. rewrite existsb_exists, bool_decide_eq_true, Exists_exists.
    split; intros (m & Hin & Hm); exists m;
      (split; [by apply list_elem_of_In | by apply is_review_type]). }
  cbn [enhanceJournalEntry accomplishments]. unfold contextualAccomplishments.
  rewrite Hrev.
  destruct (raw_pullRequests data) as [| pr prs] eqn:Hprs; simpl;
    case_decide; [rewrite bool_decide_eq_true_2 by done
                 | rewrite bool_decide_eq_false_2 by done
                 | rewrite bool_decide_eq_true_2 by done
                 | rewrite bool_decide_eq_false_2 by done];
    (split_and!; [reflexivity | by eexists | rewrite length_app; simpl; lia]).
Qed.




(** X17.  The comprehensive run writes one file, named after the calendar date
    of the clock, and touches no other; the entry it renders there has the
    three mock meetings, the mood "relaxed", the accomplishment of the one
    in-progress item followed by the review and pull request lines, and the
    two fixed next steps alone. *)
Theorem comprehensive_run (Date_getDay : Date.t → nat)
    (Date_toISOString : Date.t → string) (journalDir : string)
    (today now : Date.t) (files : gmap string string) (d time : string) :
  Date_toISOString today = d +:+ "T" +:+ time →
  plain_date d = true →
  let run := generateComprehensiveJournal Date_getDay Date_toISOString
               journalDir today now files in
  run.1 = journalDir +:+ "/journal-" +:+ d +:+ ".md"
  ∧ (∀ name, name ≠ entryFilename d → run.2 !! name = files !! name)
  ∧ d ∈ listEntries run.2
  ∧ ∃ entry : JournalEntry,
      run.2 !! entryFilename d = Some (generateMarkdown Date_toISOString now entry)
      ∧ date entry = d
      ∧ mood entry = "relaxed"
      ∧ meetings entry = mockEvents
      ∧ accomplishments entry
        = ["Continued work on Feature: [ACS][EUDB] Workstream 1: Comply with EU Data Boundary requirements for EUII/CC processing and storage only within EUDB by 06/30/22 (ID: 2523677)";
           "Participated in architecture review meeting";
           "Created/reviewed 1 pull request(s)"]
      ∧ nextSteps entry
        = ["Review pending EUDB compliance requirements";
           "Follow up on architecture review feedback"].
Proof.
  intros Hiso Hplain run. subst run.
  unfold generateComprehensiveJournal, saveEntry. cbv zeta. cbn [fst snd].
  set (entry := enhanceJournalEntry _ _).
  assert (date entry = d) as Hd.
  { change (formatDate Date_toISOString today = d).
    unfold formatDate. rewrite Hiso. by apply before_T_plain. }
  rewrite Hd. split_and!.
  - reflexivity.
  - intros name Hne. by rewrite lookup_insert_ne.
  - apply listEntries_elem. exists (entryFilename d). split_and!.
    + rewrite lookup_insert_eq. by eexists.
    + apply is_journal_file_entryFilename.
    + by rewrite strip_name_entryFilename.
  - exists entry. split; [apply lookup_insert_eq |].
    split_and!; [exact Hd | reflexivity ..].
Qed.

Lemma comprehensive_run_witness :
  (λ _ : Date.t, "2025-10-03T15:30:00.000Z") (Date.Instant 1759505400000)
    = "2025-10-03" +:+ "T" +:+ "15:30:00.000Z"
  ∧ plain_date "2025-10-03" = true
  ∧ (generateComprehensiveJournal Date.utc_day (λ _, "2025-10-03T15:30:00.000Z")
       "/home/me/journal-entries" (Date.Instant 1759505400000)
       (Date.Instant 1759505400000) ∅).1
    = "/home/me/journal-entries/journal-2025-10-03.md".
Proof.
  split_and!; [reflexivity | reflexivity |].
  exact (proj1 (comprehensive_run Date.utc_day (λ _, "2025-10-03T15:30:00.000Z")
                  "/home/me/journal-entries" (Date.Instant 1759505400000)
                  (Date.Instant 1759505400000) ∅
                  "2025-10-03" "15:30:00.000Z" eq_refl eq_refl)).
Defined.

(** ** The patch document of [create-work-item] *)

(** X18.  The patch document starts with the title, holds only [add] operations,
    between one and five of them, on distinct paths in the fixed order
    title, description, assignee, priority, severity.  The severity is
    sent exactly when it is given, not empty, and the work item type is
    [bug] in any letter case.  A priority of zero and an empty description,
    assignee or severity are treated as left out. *)
Theorem createWorkItemPatch_shape (workItemType title : string)
    (description assignedTo : option string) (priority : option Z)
    (severity : option string) :
  let doc := AdoServer.createWorkItemPatch workItemType title description
               assignedTo priority severity in
  head doc = Some {| AdoServer.op := "add";
                     AdoServer.path := "/fields/System.Title";
                     AdoServer.value := Js.VStr title |}
  ∧ Forall (λ o, AdoServer.op o = "add") doc
  ∧ (1 ≤ length doc ≤ 5)%nat
  ∧ (AdoServer.path <$> doc) `sublist_of` AdoServer.patchPaths
  ∧ ("/fields/Microsoft.VSTS.Common.Severity" ∈ AdoServer.path <$> doc
     ↔ truthy severity = true ∧ Js.toLowerCase workItemType = "bug")
  ∧ AdoServer.createWorkItemPatch workItemType title description assignedTo
      (Some 0%Z) severity
    = AdoServer.createWorkItemPatch workItemType title description assignedTo
        None severity
  ∧ AdoServer.createWorkItemPatch workItemType title (Some "") (Some "")
      priority (Some "")
    = AdoServer.createWorkItemPatch workItemType title None None priority None.
Proof.
  intros doc. subst doc. unfold AdoServer.createWorkItemPatch.
  destruct (String.eqb_spec (Js.toLowerCase workItemType) "bug") as [Hb | Hb];
    destruct (truthy description), (truthy assignedTo),
      (AdoServer.truthy_number priority), (truthy severity);
    cbn [andb app head fmap list_fmap AdoServer.path length].
  all: split_and!.
  all: try reflexivity.
  all: try lia.
  all: try (repeat constructor; fail).
  all: try (unfold AdoServer.patchPaths; compute_done).
  all: split; [intros Hin | intros [_ Hty]].
  all: try (by split).
  all: try congruence.
  all: try (rewrite !elem_of_cons; tauto).
  all: exfalso; revert Hin; rewrite !elem_of_cons, elem_of_nil;
       intros ?; intuition discriminate.
Qed.

(** ** Nothing recognised is lost *)

(** X19.  The three buckets together hold exactly the items with a recognised
    state, each once, with the fields of the raw item: the categoriser
    neither loses nor duplicates such an item. *)
Theorem categorize_keeps_recognized (items : list Raw.item) :
  inProgress (categorizeWorkItems items)
  ++ open (categorizeWorkItems items)
  ++ pending (categorizeWorkItems items)
  ≡ₚ toWorkItem <$> filter recognized items.
Proof.
  rewrite categorize_filter. cbn [inProgress open pending].
  induction items as [| item items IH]; [reflexivity |].
  destruct (routes_exclusive item) as [Hx Hy].
  pose proof (recognized_routes item) as Hr.
  rewrite !filter_cons.
  destruct (decide (goes_inProgress item)) as [Hi | Hi];
    destruct (decide (goes_open item)) as [Ho | Ho];
    destruct (decide (goes_pending item)) as [Hp | Hp];
    destruct (decide (recognized item)) as [Hd | Hd];
    try (exfalso; tauto); rewrite ?fmap_cons.
  - simpl. by rewrite IH.
  - rewrite <- app_comm_cons, <- Permutation_middle. by rewrite IH.
  - rewrite app_assoc, <- Permutation_middle, <- app_assoc. by rewrite IH.
  - exact IH.
Qed.
